(** * jsapi: the HTTP client of [src/app.ts]

    A shallow embedding of the [HttpClient] class: JavaScript values and
    [JSON.stringify], the envelope-unwrapping transport primitive [http], the
    verb helpers [post], [put] and [delete], and one definition per endpoint
    method.  A call is a computation over a world holding the client object,
    the console, the requests issued so far and the remote server. *)

From Stdlib Require Import ZArith String Ascii List Bool DecimalString Lia.
Import ListNotations.
Local Open Scope list_scope.
Local Open Scope string_scope.

Set Implicit Arguments.
Set Warnings "-register-all".
Unset Elimination Schemes.

(** ** JavaScript values *)

(** The values that travel through the client: request payloads and parsed
    response bodies.  An object is the list of its own properties in
    insertion order, which is the order [JSON.stringify] writes them in.
    [VNum n] stands for the number whose value is the integer [n]; a
    JavaScript number is a double, so the model is exact for the integers of
    magnitude up to 2^53 (see [exact_numbers]) and has no counterpart for
    the other numbers. *)
Inductive value : Type :=
| VUndefined
| VNull
| VBool (b : bool)
| VNum (n : Z)
| VStr (s : string)
| VArr (elems : list value)
| VObj (props : list (string * value)).

Set Elimination Schemes.

Definition empty : string := EmptyString.

(** [v !== undefined] *)
Definition defined (v : value) : bool :=
  match v with VUndefined => false | _ => true end.

(** Truthiness of a value, as tested by [if (v)]. *)
Definition truthy (v : value) : bool :=
  match v with
  | VUndefined | VNull => false
  | VBool b => b
  | VNum n => negb (Z.eqb n 0)
  | VStr s => negb (String.eqb s empty)
  | VArr _ | VObj _ => true
  end.

Fixpoint assoc {A : Type} (k : string) (l : list (string * A)) : option A :=
  match l with
  | [] => None
  | (k', a) :: r => if String.eqb k k' then Some a else assoc k r
  end.

(** Property read [v.k].  Reading a property of [undefined] or [null] is a
    TypeError ([None]); a missing property reads as [undefined]; primitives
    and arrays have no property of the names used here. *)
Definition get_prop (v : value) (k : string) : option value :=
  match v with
  | VUndefined | VNull => None
  | VObj props => Some (match assoc k props with Some x => x | None => VUndefined end)
  | _ => Some VUndefined
  end.

(** ** Strings of values *)

Definition dquote : ascii := "034"%char.
Definition backslash : ascii := "092"%char.

(** The decimal digits of an integer: what [String] and [JSON.stringify]
    write for an integer of magnitude up to 2^53. *)
Definition string_of_Z (n : Z) : string := NilZero.string_of_int (Z.to_int n).

Fixpoint join (sep : string) (l : list string) : string :=
  match l with
  | [] => empty
  | [s] => s
  | s :: r => s ++ sep ++ join sep r
  end.

Definition hex_digit (n : nat) : ascii :=
  if Nat.ltb n 10 then ascii_of_nat (48 + n) else ascii_of_nat (87 + n).

(** One character of a JSON string literal. *)
Definition escape_char (c : ascii) : string :=
  let n := nat_of_ascii c in
  if Ascii.eqb c dquote then String backslash (String dquote empty)
  else if Ascii.eqb c backslash then String backslash (String backslash empty)
  else if Nat.eqb n 8 then String backslash "b"
  else if Nat.eqb n 9 then String backslash "t"
  else if Nat.eqb n 10 then String backslash "n"
  else if Nat.eqb n 12 then String backslash "f"
  else if Nat.eqb n 13 then String backslash "r"
  else if Nat.ltb n 32 then
    String backslash ("u00" ++ String (hex_digit (n / 16)) (String (hex_digit (n mod 16)) empty))
  else String c empty.

Fixpoint escape (s : string) : string :=
  match s with
  | EmptyString => empty
  | String c r => escape_char c ++ escape r
  end.

Definition quote (s : string) : string :=
  String dquote (escape s ++ String dquote empty).

(** [JSON.stringify(v)]: [None] is the result [undefined].  A property whose
    value is [undefined] is left out of an object, and an [undefined] element
    of an array is written [null]. *)
Fixpoint JSON_stringify (v : value) : option string :=
  match v with
  | VUndefined => None
  | VNull => Some "null"
  | VBool true => Some "true"
  | VBool false => Some "false"
  | VNum n => Some (string_of_Z n)
  | VStr s => Some (quote s)
  | VArr elems =>
      let fix items (l : list value) : list string :=
        match l with
        | [] => []
        | x :: r =>
            match JSON_stringify x with Some t => t | None => "null" end :: items r
        end in
      Some ("[" ++ join "," (items elems) ++ "]")
  | VObj props =>
      let fix members (l : list (string * value)) : list string :=
        match l with
        | [] => []
        | (k, x) :: r =>
            match JSON_stringify x with
            | Some t => (quote k ++ ":" ++ t) :: members r
            | None => members r
            end
        end in
      Some ("{" ++ join "," (members props) ++ "}")
  end.

(** [String(v)], the conversion applied by [+] on strings and by the [Error]
    constructor. *)
Fixpoint ToString (v : value) : string :=
  match v with
  | VUndefined => "undefined"
  | VNull => "null"
  | VBool true => "true"
  | VBool false => "false"
  | VNum n => string_of_Z n
  | VStr s => s
  | VArr elems =>
      let fix items (l : list value) : list string :=
        match l with
        | [] => []
        | x :: r =>
            match x with
            | VUndefined | VNull => empty
            | _ => ToString x
            end :: items r
        end in
      join "," (items elems)
  | VObj _ => "[object Object]"
  end.


(** An optional string argument ([name?: string]) as a value. *)
Definition of_opt_string (o : option string) : value :=
  match o with Some s => VStr s | None => VUndefined end.

Definition of_opt_bool (o : option bool) : value :=
  match o with Some b => VBool b | None => VUndefined end.

(** ** Requests, responses and the world *)

Definition ID := string.

Inductive HubPermission : Type :=
| HubAll | ReadChannels | WriteChannels | Administrate | ManageChannels
| Mute | Unmute | Kick | Ban | Unban.

Definition HubPermission_str (p : HubPermission) : string :=
  match p with
  | HubAll => "ALL"
  | ReadChannels => "READ_CHANNELS"
  | WriteChannels => "WRITE_CHANNELS"
  | Administrate => "ADMINISTRATE"
  | ManageChannels => "MANAGE_CHANNELS"
  | Mute => "MUTE"
  | Unmute => "UNMUTE"
  | Kick => "KICK"
  | Ban => "BAN"
  | Unban => "UNBAN"
  end.

Inductive ChannelPermission : Type :=
| Write | Read | Manage | ChannelAll.

Definition ChannelPermission_str (p : ChannelPermission) : string :=
  match p with
  | Write => "WRITE"
  | Read => "READ"
  | Manage => "MANAGE"
  | ChannelAll => "ALL"
  end.

(** A [Date] is used by the client through two renderings only: the one of
    string concatenation and the one [JSON.stringify] asks for. *)
Record Date : Type := { Date_toString : string; Date_toJSON : value }.

(** The client object: its two fields are set by the constructor. *)
Record HttpClient : Type := { base_url : string; auth : string }.

(** The second argument of [fetch]. *)
Record RequestInit : Type :=
  { method : option string;
    headers : list (string * string);
    body : option string }.

Record Request : Type := { url : string; init : RequestInit }.

(** What comes back for a request: no response at all, a response whose body
    is not JSON, or a response whose body parses to a value. *)
Inductive Reply : Type :=
| Unreachable
| Malformed
| Body (json : value).

Record Response : Type := { parsed : option value }.

(** Exceptions.  [Error] is the only one the client constructs itself. *)
Inductive Exn : Type :=
| Error (message : string)
| TypeError
| TransportError.

(** [new Error(m)]: the message is [String(m)], except that an [undefined]
    argument leaves the error with the default message, the empty string. *)
Definition new_Error (m : value) : Exn :=
  Error (match m with VUndefined => empty | _ => ToString m end).

(** [e.message] of an [Error]; the text of the other exceptions is the
    engine's or the library's and is not modelled. *)
Definition message_of (e : Exn) : option value :=
  match e with
  | Error m => Some (VStr m)
  | TypeError | TransportError => None
  end.

(** The world a call runs in.  The server answers a request as a function of
    all the requests issued so far, the last one being the one to answer. *)
Record World : Type :=
  { this : HttpClient;
    console : list string;
    sent : list Request;
    server : list Request -> Reply }.

(** ** Computations *)

Inductive Outcome (A : Type) : Type :=
| Return (a : A)
| Throw (e : Exn).
Arguments Return {A} a.
Arguments Throw {A} e.

Definition M (A : Type) : Type := World -> Outcome A * World.

Definition ret {A} (a : A) : M A := fun w => (Return a, w).

Definition throw {A} (e : Exn) : M A := fun w => (Throw e, w).

Definition bind {A B} (c : M A) (k : A -> M B) : M B :=
  fun w =>
    match c w with
    | (Return a, w') => k a w'
    | (Throw e, w') => (Throw e, w')
    end.

Notation "x <- c ;; k" := (bind c (fun x => k))
  (at level 61, c at next level, right associativity).
Notation "c ;;; k" := (bind c (fun _ => k))
  (at level 61, right associativity).

Definition outcome {A} (c : M A) (w : World) : Outcome A := fst (c w).
Definition after {A} (c : M A) (w : World) : World := snd (c w).

Definition get_this : M HttpClient := fun w => (Return (this w), w).

Definition console_log (line : string) : M unit :=
  fun w =>
    (Return tt,
     {| this := this w; console := console w ++ [line]%list;
        sent := sent w; server := server w |}).

(** [await fetch(url, init)]: the request is recorded as it is handed to the
    library and answered by the server.  The library's own refusal of a
    request, before anything is sent, is modelled apart in [NodeFetch]. *)
Definition fetch (u : string) (i : RequestInit) : M Response :=
  fun w =>
    let h := (sent w ++ [{| url := u; init := i |}])%list in
    let w' := {| this := this w; console := console w;
                 sent := h; server := server w |} in
    match server w h with
    | Unreachable => (Throw TransportError, w')
    | Malformed => (Return {| parsed := None |}, w')
    | Body v => (Return {| parsed := Some v |}, w')
    end.

(** [await response.json()] *)
Definition Response_json (r : Response) : M value :=
  match parsed r with
  | Some v => ret v
  | None => throw TransportError
  end.

(** [result.k] inside a computation. *)
Definition read (v : value) (k : string) : M value :=
  match get_prop v k with
  | Some x => ret x
  | None => throw TypeError
  end.

(** ** The transport primitive and the verb helpers *)

Definition default_init (c : HttpClient) : RequestInit :=
  {| method := Some "GET";
     headers := [("Authorization", auth c)];
     body := None |}.

Definition http (u : string) (i : option RequestInit) : M value :=
  self <- get_this ;;
  let i := match i with Some i => i | None => default_init self end in
  response <- fetch u i ;;
  json <- Response_json response ;;
  success <- read json "success" ;;
  if defined success then ret success
  else (error <- read json "error" ;; throw (new_Error error)).

Definition post (u : string) (b : value) : M value :=
  self <- get_this ;;
  let '(body_text, content_type) :=
    if defined b then (JSON_stringify b, "application/json")
    else (Some empty, empty) in
  http u (Some {| method := Some "POST";
                  headers := [("Authorization", auth self);
                              ("Content-type", content_type)];
                  body := body_text |}).

Definition put (u : string) (b : option string) : M value :=
  self <- get_this ;;
  http u (Some {| method := Some "PUT";
                  headers := [("Authorization", auth self);
                              ("Content-type", "application/json")];
                  body := b |}).

Definition delete (u : string) : M value :=
  self <- get_this ;;
  http u (Some {| method := Some "DELETE";
                  headers := [("Authorization", auth self)];
                  body := None |}).

(** The transport primitive of the earlier draft (the second file of
    [part_000]): the same code with [if (result.success)] as the test. *)
Module Draft.

Definition http (u : string) (i : option RequestInit) : M value :=
  self <- get_this ;;
  let i := match i with Some i => i | None => default_init self end in
  response <- fetch u i ;;
  json <- Response_json response ;;
  success <- read json "success" ;;
  if truthy success then ret success
  else (error <- read json "error" ;; throw (new_Error error)).

End Draft.

(** ** The endpoint methods *)

Definition getHub (id : ID) : M value :=
  console_log ("Getting hub " ++ id) ;;;
  self <- get_this ;;
  http (base_url self ++ "/hub/" ++ id) None.

Definition createHub (name description : option string) : M value :=
  console_log ("Creating hub " ++ ToString (of_opt_string name)) ;;;
  self <- get_this ;;
  post (base_url self ++ "/hub")
       (VObj [("name", of_opt_string name);
              ("description", of_opt_string description)]).

Definition deleteHub (id : ID) : M value :=
  console_log ("Deleting hub " ++ id) ;;;
  self <- get_this ;;
  http (base_url self ++ "/hub/" ++ id) None.

Definition updateHub (id : ID) (update : value) : M value :=
  console_log ("Updating hub " ++ id) ;;;
  self <- get_this ;;
  put (base_url self ++ "/hub/" ++ id) (JSON_stringify update).

Definition joinHub (hub_id : ID) : M value :=
  console_log ("Joining hub " ++ hub_id) ;;;
  self <- get_this ;;
  post (base_url self ++ "/hub/" ++ hub_id ++ "/join") VUndefined.

Definition leaveHub (hub_id : ID) : M value :=
  console_log ("Leaving hub " ++ hub_id) ;;;
  self <- get_this ;;
  post (base_url self ++ "/hub/" ++ hub_id ++ "/leave") VUndefined.

Definition getChannel (hub_id channel_id : ID) : M value :=
  console_log ("Getting channel " ++ channel_id ++ " in hub " ++ hub_id) ;;;
  self <- get_this ;;
  http (base_url self ++ "/channel/" ++ hub_id ++ "/" ++ channel_id) None.

Definition updateChannel (hub_id channel_id : ID) (update : value) : M value :=
  console_log ("Updating channel " ++ channel_id ++ " in hub " ++ hub_id) ;;;
  self <- get_this ;;
  put (base_url self ++ "/channel/" ++ hub_id ++ "/" ++ channel_id)
      (JSON_stringify update).

Definition deleteChannel (hub_id channel_id : ID) : M value :=
  console_log ("Deleting channel " ++ channel_id ++ " in hub " ++ hub_id) ;;;
  self <- get_this ;;
  delete (base_url self ++ "/channel/" ++ hub_id ++ "/" ++ channel_id).

Definition createChannel (hub_id : ID) (name description : option string) : M value :=
  console_log ("Creating channel " ++ ToString (of_opt_string name)
               ++ " in hub " ++ hub_id) ;;;
  self <- get_this ;;
  post (base_url self ++ "/channel/" ++ hub_id)
       (VObj [("name", of_opt_string name);
              ("description", of_opt_string description)]).

Definition getMember (hub_id member_id : ID) : M value :=
  console_log ("Getting member " ++ member_id ++ " in hub " ++ hub_id) ;;;
  self <- get_this ;;
  http (base_url self ++ "/member/" ++ hub_id ++ "/" ++ member_id) None.

Definition getMemberStatus (hub_id member_id : ID) : M value :=
  console_log ("Getting member status " ++ member_id ++ " in hub " ++ hub_id) ;;;
  self <- get_this ;;
  http (base_url self ++ "/member/" ++ hub_id ++ "/" ++ member_id ++ "/status") None.

Definition setMemberHubPermission (hub_id member_id : ID)
    (permission : HubPermission) (setting : option bool) : M value :=
  console_log ("Setting member permission " ++ HubPermission_str permission
               ++ " for member " ++ member_id ++ " in hub " ++ hub_id) ;;;
  self <- get_this ;;
  put (base_url self ++ "/member/" ++ hub_id ++ "/" ++ member_id
       ++ "/hub_permission/" ++ HubPermission_str permission)
      (JSON_stringify (VObj [("setting", of_opt_bool setting)])).

Definition setMemberChannelPermission (hub_id member_id channel_id : ID)
    (permission : ChannelPermission) (setting : option bool) : M value :=
  console_log ("Setting member permission " ++ ChannelPermission_str permission
               ++ " for member " ++ member_id ++ " in channel " ++ channel_id
               ++ " in hub " ++ hub_id) ;;;
  self <- get_this ;;
  put (base_url self ++ "/member/" ++ hub_id ++ "/" ++ member_id
       ++ "/channel_permission/" ++ channel_id ++ "/"
       ++ ChannelPermission_str permission)
      (JSON_stringify (VObj [("setting", of_opt_bool setting)])).

Definition getMemberHubPermission (hub_id member_id : ID)
    (permission : HubPermission) : M value :=
  console_log ("Getting member permission " ++ HubPermission_str permission
               ++ " for member " ++ member_id ++ " in hub " ++ hub_id) ;;;
  self <- get_this ;;
  http (base_url self ++ "/member/" ++ hub_id ++ "/" ++ member_id
        ++ "/hub_permission/" ++ HubPermission_str permission) None.

Definition getMemberChannelPermission (hub_id member_id channel_id : ID)
    (permission : ChannelPermission) : M value :=
  console_log ("Getting member permission " ++ ChannelPermission_str permission
               ++ " for member " ++ member_id ++ " in channel " ++ channel_id
               ++ " in hub " ++ hub_id) ;;;
  self <- get_this ;;
  http (base_url self ++ "/member/" ++ hub_id ++ "/" ++ member_id
        ++ "/channel_permission/" ++ channel_id ++ "/"
        ++ ChannelPermission_str permission) None.

Definition banMember (hub_id member_id : ID) : M value :=
  console_log ("Banning member " ++ member_id ++ " in hub " ++ hub_id) ;;;
  self <- get_this ;;
  post (base_url self ++ "/member/" ++ hub_id ++ "/" ++ member_id ++ "/ban") VUndefined.

Definition unbanMember (hub_id member_id : ID) : M value :=
  console_log ("Unbanning member " ++ member_id ++ " in hub " ++ hub_id) ;;;
  self <- get_this ;;
  post (base_url self ++ "/member/" ++ hub_id ++ "/" ++ member_id ++ "/unban") VUndefined.

Definition muteMember (hub_id member_id : ID) : M value :=
  console_log ("Muting member " ++ member_id ++ " in hub " ++ hub_id) ;;;
  self <- get_this ;;
  post (base_url self ++ "/member/" ++ hub_id ++ "/" ++ member_id ++ "/mute") VUndefined.

Definition unmuteMember (hub_id member_id : ID) : M value :=
  console_log ("Unmuting member " ++ member_id ++ " in hub " ++ hub_id) ;;;
  self <- get_this ;;
  post (base_url self ++ "/member/" ++ hub_id ++ "/" ++ member_id ++ "/unmute") VUndefined.

Definition kickMember (hub_id member_id : ID) : M value :=
  console_log ("Kicking member " ++ member_id ++ " in hub " ++ hub_id) ;;;
  self <- get_this ;;
  post (base_url self ++ "/member/" ++ hub_id ++ "/" ++ member_id ++ "/kick") VUndefined.

Definition sendMessage (hub_id channel_id : ID) (message : string) : M value :=
  console_log ("Sending message " ++ message ++ " in channel " ++ channel_id
               ++ " in hub " ++ hub_id) ;;;
  self <- get_this ;;
  post (base_url self ++ "/message/" ++ hub_id ++ "/" ++ channel_id)
       (VObj [("message", VStr message)]).

Definition getMessage (hub_id channel_id message_id : ID) : M value :=
  console_log ("Getting message " ++ message_id ++ " in channel " ++ channel_id
               ++ " in hub " ++ hub_id) ;;;
  self <- get_this ;;
  http (base_url self ++ "/message/" ++ hub_id ++ "/" ++ channel_id ++ "/"
        ++ message_id) None.

Definition getMessagesAfter (hub_id channel_id from : ID) (max : Z) : M value :=
  console_log ("Getting messages after " ++ from ++ " in channel " ++ channel_id
               ++ " in hub " ++ hub_id) ;;;
  self <- get_this ;;
  http (base_url self ++ "/message/" ++ hub_id ++ "/" ++ channel_id ++ "/after")
       (Some {| method := Some "GET";
                headers := [("Authorization", auth self);
                            ("Content-type", "application/json")];
                body := JSON_stringify (VObj [("from", VStr from);
                                              ("max", VNum max)]) |}).

Definition getMesssagesTimeRange (hub_id channel_id : ID) (from to : Date)
    (max : Z) (new_to_old : bool) : M value :=
  console_log ("Getting messages in time range " ++ Date_toString from ++ " to "
               ++ Date_toString to ++ " in channel " ++ channel_id
               ++ " in hub " ++ hub_id) ;;;
  self <- get_this ;;
  http (base_url self ++ "/message/" ++ hub_id ++ "/" ++ channel_id
        ++ "/time_period")
       (Some {| method := Some "GET";
                headers := [("Authorization", auth self);
                            ("Content-type", "application/json")];
                body := JSON_stringify (VObj [("from", Date_toJSON from);
                                              ("to", Date_toJSON to);
                                              ("max", VNum max);
                                              ("new_to_old", VBool new_to_old)]) |}).

Definition graphQL (query : string) (variables : value) : M value :=
  console_log "Sending graphQL query." ;;;
  self <- get_this ;;
  response <- fetch (base_url self ++ "/graphql")
                {| method := Some "POST";
                   headers := [("Authorization", auth self);
                               ("Content-type", "application/json")];
                   body := JSON_stringify (VObj [("query", VStr query);
                                                 ("variables", variables)]) |} ;;
  Response_json response.

(** A call of an endpoint method with its arguments.  [graphQL] is kept apart:
    it is the one method that does not go through [http]. *)
Inductive EnvelopeCall : Type :=
| CGetHub (id : ID)
| CCreateHub (name description : option string)
| CDeleteHub (id : ID)
| CUpdateHub (id : ID) (update : value)
| CJoinHub (hub_id : ID)
| CLeaveHub (hub_id : ID)
| CGetChannel (hub_id channel_id : ID)
| CUpdateChannel (hub_id channel_id : ID) (update : value)
| CDeleteChannel (hub_id channel_id : ID)
| CCreateChannel (hub_id : ID) (name description : option string)
| CGetMember (hub_id member_id : ID)
| CGetMemberStatus (hub_id member_id : ID)
| CSetMemberHubPermission (hub_id member_id : ID) (p : HubPermission) (setting : option bool)
| CSetMemberChannelPermission (hub_id member_id channel_id : ID) (p : ChannelPermission) (setting : option bool)
| CGetMemberHubPermission (hub_id member_id : ID) (p : HubPermission)
| CGetMemberChannelPermission (hub_id member_id channel_id : ID) (p : ChannelPermission)
| CBanMember (hub_id member_id : ID)
| CUnbanMember (hub_id member_id : ID)
| CMuteMember (hub_id member_id : ID)
| CUnmuteMember (hub_id member_id : ID)
| CKickMember (hub_id member_id : ID)
| CSendMessage (hub_id channel_id : ID) (message : string)
| CGetMessage (hub_id channel_id message_id : ID)
| CGetMessagesAfter (hub_id channel_id from : ID) (max : Z)
| CGetMesssagesTimeRange (hub_id channel_id : ID) (from to : Date) (max : Z) (new_to_old : bool).

Inductive Call : Type :=
| Enveloped (c : EnvelopeCall)
| CGraphQL (query : string) (variables : value).

Definition invoke_enveloped (c : EnvelopeCall) : M value :=
  match c with
  | CGetHub id => getHub id
  | CCreateHub n d => createHub n d
  | CDeleteHub id => deleteHub id
  | CUpdateHub id u => updateHub id u
  | CJoinHub h => joinHub h
  | CLeaveHub h => leaveHub h
  | CGetChannel h c => getChannel h c
  | CUpdateChannel h c u => updateChannel h c u
  | CDeleteChannel h c => deleteChannel h c
  | CCreateChannel h n d => createChannel h n d
  | CGetMember h m => getMember h m
  | CGetMemberStatus h m => getMemberStatus h m
  | CSetMemberHubPermission h m p s => setMemberHubPermission h m p s
  | CSetMemberChannelPermission h m c p s => setMemberChannelPermission h m c p s
  | CGetMemberHubPermission h m p => getMemberHubPermission h m p
  | CGetMemberChannelPermission h m c p => getMemberChannelPermission h m c p
  | CBanMember h m => banMember h m
  | CUnbanMember h m => unbanMember h m
  | CMuteMember h m => muteMember h m
  | CUnmuteMember h m => unmuteMember h m
  | CKickMember h m => kickMember h m
  | CSendMessage h c t => sendMessage h c t
  | CGetMessage h c m => getMessage h c m
  | CGetMessagesAfter h c f n => getMessagesAfter h c f n
  | CGetMesssagesTimeRange h c f t n o => getMesssagesTimeRange h c f t n o
  end.

Definition invoke (c : Call) : M value :=
  match c with
  | Enveloped c => invoke_enveloped c
  | CGraphQL q v => graphQL q v
  end.

(** ** What one round trip does *)

(** The envelope unwrap as a function of the server's reply. *)
Definition unwrap (r : Reply) : Outcome value :=
  match r with
  | Unreachable | Malformed => Throw TransportError
  | Body json =>
      match get_prop json "success" with
      | None => Throw TypeError
      | Some success =>
          if defined success then Return success
          else match get_prop json "error" with
               | Some error => Throw (new_Error error)
               | None => Throw TypeError
               end
      end
  end.

(** The raw read of [graphQL]. *)
Definition raw (r : Reply) : Outcome value :=
  match r with
  | Unreachable | Malformed => Throw TransportError
  | Body json => Return json
  end.

(** The world after [lines] were logged and [r] was sent. *)
Definition sending (lines : list string) (r : Request) (w : World) : World :=
  {| this := this w;
     console := (console w ++ lines)%list;
     sent := (sent w ++ [r])%list;
     server := server w |}.

(** The reply to [r] in world [w]. *)
Definition reply_to (r : Request) (w : World) : Reply :=
  server w (sent w ++ [r])%list.

Definition effective_init (i : option RequestInit) (c : HttpClient) : RequestInit :=
  match i with Some i => i | None => default_init c end.

(** The world after [line] was logged. *)
Definition logging (line : string) (w : World) : World :=
  {| this := this w; console := (console w ++ [line])%list;
     sent := sent w; server := server w |}.

Create HintDb endpoints.
#[local] Hint Unfold getHub createHub deleteHub updateHub joinHub leaveHub
  getChannel updateChannel deleteChannel createChannel getMember
  getMemberStatus setMemberHubPermission setMemberChannelPermission
  getMemberHubPermission getMemberChannelPermission banMember unbanMember
  muteMember unmuteMember kickMember sendMessage getMessage getMessagesAfter
  getMesssagesTimeRange : endpoints.

(** ** Servers and worlds to run calls on *)

Definition client0 : HttpClient :=
  {| base_url := "http://127.0.0.1:8080/api"; auth := "user-1" |}.

(** A server with one answer to everything. *)
Definition always (r : Reply) : list Request -> Reply := fun _ => r.

Definition world_of (srv : list Request -> Reply) : World :=
  {| this := client0; console := []; sent := []; server := srv |}.

Definition opt_eqb (a b : option string) : bool :=
  match a, b with
  | Some x, Some y => String.eqb x y
  | None, None => true
  | _, _ => false
  end.

(** The body [setMemberHubPermission] sends for a setting. *)
Definition setting_body (s : option bool) : option string :=
  JSON_stringify (VObj [("setting", of_opt_bool s)]).

(** After the history [h], the server reflects the setting of [r_put] in
    [r_get]: if it accepts [r_put] sent next (it answers with an envelope
    whose [success] is defined), then it answers [r_get] sent right after
    with an envelope whose [success] is [true].  This speaks of the answers
    to these two requests after this history only. *)
Definition reflects_setting (srv : list Request -> Reply) (h : list Request)
    (r_put r_get : Request) : Prop :=
  forall json status,
    srv (h ++ [r_put])%list = Body json ->
    get_prop json "success" = Some status ->
    status <> VUndefined ->
    exists json',
      srv (h ++ [r_put; r_get])%list = Body json'
      /\ get_prop json' "success" = Some (VBool true).

(** A small permission store: the setting of a path is the one of the latest
    PUT on it, [null] when there is none.  [earlier] is newest first. *)
Fixpoint stored (u : string) (earlier : list Request) : value :=
  match earlier with
  | [] => VNull
  | q :: r =>
      if (opt_eqb (method (init q)) (Some "PUT") && String.eqb (url q) u)%bool then
        if opt_eqb (body (init q)) (setting_body (Some true)) then VBool true
        else if opt_eqb (body (init q)) (setting_body (Some false)) then VBool false
        else VNull
      else stored u r
  end.

(** A server for the member paths of [client0] that checks the token: a
    request with another token or another path is answered with an error
    envelope, a GET with the stored setting, anything else with a status. *)
Definition permission_server (h : list Request) : Reply :=
  match rev h with
  | [] => Unreachable
  | q :: earlier =>
      if negb (opt_eqb (assoc "Authorization" (headers (init q))) (Some "user-1"))
      then Body (VObj [("error", VStr "Unauthorized")])
      else if negb (String.prefix "http://127.0.0.1:8080/api/member/" (url q))
      then Body (VObj [("error", VStr "Not found")])
      else if opt_eqb (method (init q)) (Some "GET")
      then Body (VObj [("success", stored (url q) earlier)])
      else Body (VObj [("success", VObj [("member", VStr "m")])])
  end.

(** ** The guard of the fetch library *)

Definition upper (c : ascii) : ascii :=
  let n := nat_of_ascii c in
  if (Nat.leb 97 n && Nat.leb n 122)%bool then ascii_of_nat (n - 32) else c.

(** [s.toUpperCase()] on the letters a to z. *)
Fixpoint toUpperCase (s : string) : string :=
  match s with
  | EmptyString => EmptyString
  | String c r => String (upper c) (toUpperCase r)
  end.

(** The guard of node-fetch, the library [fetch] is imported from (it is not
    part of the repository): its [Request] constructor throws a TypeError
    when a body is given and the method, GET when there is none, is GET or
    HEAD in upper case. *)
Definition refuses_body (i : RequestInit) : bool :=
  match body i with
  | None => false
  | Some _ =>
      let m := toUpperCase (match method i with Some m => m | None => "GET" end) in
      (String.eqb m "GET" || String.eqb m "HEAD")%bool
  end.

(** The transport primitive and the two message queries of [app.ts] over a
    [fetch] that has the guard of the library. *)
Module NodeFetch.

Definition fetch (u : string) (i : RequestInit) : M Response :=
  if refuses_body i then throw TypeError else fetch u i.

Definition http (u : string) (i : option RequestInit) : M value :=
  self <- get_this ;;
  let i := match i with Some i => i | None => default_init self end in
  response <- fetch u i ;;
  json <- Response_json response ;;
  success <- read json "success" ;;
  if defined success then ret success
  else (error <- read json "error" ;; throw (new_Error error)).

Definition getMessagesAfter (hub_id channel_id from : ID) (max : Z) : M value :=
  console_log ("Getting messages after " ++ from ++ " in channel " ++ channel_id
               ++ " in hub " ++ hub_id) ;;;
  self <- get_this ;;
  http (base_url self ++ "/message/" ++ hub_id ++ "/" ++ channel_id ++ "/after")
       (Some {| method := Some "GET";
                headers := [("Authorization", auth self);
                            ("Content-type", "application/json")];
                body := JSON_stringify (VObj [("from", VStr from);
                                              ("max", VNum max)]) |}).

Definition getMesssagesTimeRange (hub_id channel_id : ID) (from to : Date)
    (max : Z) (new_to_old : bool) : M value :=
  console_log ("Getting messages in time range " ++ Date_toString from ++ " to "
               ++ Date_toString to ++ " in channel " ++ channel_id
               ++ " in hub " ++ hub_id) ;;;
  self <- get_this ;;
  http (base_url self ++ "/message/" ++ hub_id ++ "/" ++ channel_id
        ++ "/time_period")
       (Some {| method := Some "GET";
                headers := [("Authorization", auth self);
                            ("Content-type", "application/json")];
                body := JSON_stringify (VObj [("from", Date_toJSON from);
                                              ("to", Date_toJSON to);
                                              ("max", VNum max);
                                              ("new_to_old", VBool new_to_old)]) |}).

(** [getHub] over the same [fetch], a request the guard lets through. *)
Definition getHub (id : ID) : M value :=
  console_log ("Getting hub " ++ id) ;;;
  self <- get_this ;;
  http (base_url self ++ "/hub/" ++ id) None.

End NodeFetch.

(** The server's answer to the last request a call sent. *)
Definition answer {A} (c : M A) (w : World) : Reply :=
  server w (sent (after c w)).

(** The world after a sequence of calls, whatever each of them returns or
    throws (a caller that catches every exception and goes on). *)
Fixpoint run_all (cs : list Call) (w : World) : World :=
  match cs with
  | [] => w
  | c :: r => run_all r (after (invoke c) w)
  end.

(** A world with nothing sent and a server that does not answer. *)
Definition idle (self : HttpClient) : World :=
  {| this := self; console := []; sent := []; server := always Unreachable |}.

(** The requests a call sends and the lines it logs, read off a run of the
    call itself on the idle world. *)
Definition requests_of (self : HttpClient) (c : Call) : list Request :=
  sent (after (invoke c) (idle self)).

Definition lines_of (self : HttpClient) (c : Call) : list string :=
  console (after (invoke c) (idle self)).

(** The header [k] of a request. *)
Definition header (k : string) (r : Request) : option string :=
  assoc k (headers (init r)).

(** The unwrap of the draft, as a function of the server's reply. *)
Definition Draft_unwrap (r : Reply) : Outcome value :=
  match r with
  | Unreachable | Malformed => Throw TransportError
  | Body json =>
      match get_prop json "success" with
      | None => Throw TypeError
      | Some success =>
          if truthy success then Return success
          else match get_prop json "error" with
               | Some error => Throw (new_Error error)
               | None => Throw TypeError
               end
      end
  end.

(** Reading back a JSON string literal without its quotes, the inverse of
    [escape] used to show that escaping loses nothing. *)
Definition hex_value (c : ascii) : option nat :=
  let n := nat_of_ascii c in
  if (Nat.leb 48 n && Nat.leb n 57)%bool then Some (n - 48)
  else if (Nat.leb 97 n && Nat.leb n 102)%bool then Some (n - 87)
  else None.

Fixpoint unescape (s : string) : option string :=
  match s with
  | EmptyString => Some EmptyString
  | String c r =>
      if Ascii.eqb c backslash then
        match r with
        | EmptyString => None
        | String d r1 =>
            if Ascii.eqb d dquote then option_map (String dquote) (unescape r1)
            else if Ascii.eqb d backslash then option_map (String backslash) (unescape r1)
            else if Ascii.eqb d "b" then option_map (String (ascii_of_nat 8)) (unescape r1)
            else if Ascii.eqb d "t" then option_map (String (ascii_of_nat 9)) (unescape r1)
            else if Ascii.eqb d "n" then option_map (String (ascii_of_nat 10)) (unescape r1)
            else if Ascii.eqb d "f" then option_map (String (ascii_of_nat 12)) (unescape r1)
            else if Ascii.eqb d "r" then option_map (String (ascii_of_nat 13)) (unescape r1)
            else if Ascii.eqb d "u" then
              match r1 with
              | String _ (String _ (String h1 (String h2 r2))) =>
                  match hex_value h1, hex_value h2 with
                  | Some a, Some b =>
                      option_map (String (ascii_of_nat (16 * a + b))) (unescape r2)
                  | _, _ => None
                  end
              | _ => None
              end
            else None
        end
      else if Ascii.eqb c dquote then None
      else option_map (String c) (unescape r)
  end.

(** ** Lemmas *)

Example stringify_create :
  JSON_stringify (VObj [("name", VStr "test0"); ("description", VUndefined)])
  = Some ("{" ++ quote "name" ++ ":" ++ quote "test0" ++ "}").
Proof. reflexivity. Qed.

Example stringify_after :
  JSON_stringify (VObj [("from", VStr "m1"); ("max", VNum 25)])
  = Some ("{" ++ quote "from" ++ ":" ++ quote "m1" ++ "," ++ quote "max" ++ ":25}").
Proof. reflexivity. Qed.

Lemma http_run (u : string) (i : option RequestInit) (w : World) :
  let r := {| url := u; init := effective_init i (this w) |} in
  http u i w = (unwrap (reply_to r w), sending [] r w).
Proof.
  unfold http, bind, get_this, fetch, reply_to, sending, effective_init.
  cbn [fst snd this console sent server].
  rewrite app_nil_r.
  destruct i as [i|]; cbn;
    (destruct (server w _) as [| |json]; cbn; try reflexivity;
     unfold read; destruct (get_prop json "success") as [s|] eqn:Es; cbn;
     try reflexivity;
     destruct (defined s); cbn; try reflexivity;
     destruct json; cbn in *; try discriminate; reflexivity).
Qed.

Lemma unwrap_defined (json v : value) :
  get_prop json "success" = Some v -> v <> VUndefined ->
  unwrap (Body json) = Return v.
Proof.
  intros Hs Hv. unfold unwrap. rewrite Hs.
  destruct v; cbn; try reflexivity. contradiction.
Qed.

Lemma unwrap_returns (r : Reply) (v : value) :
  unwrap r = Return v ->
  v <> VUndefined /\ exists json, r = Body json /\ get_prop json "success" = Some v.
Proof.
  destruct r as [| |json]; cbn; try discriminate.
  destruct (get_prop json "success") as [s|] eqn:Es; try discriminate.
  destruct (defined s) eqn:Ed.
  - intros [= <-]. split.
    + intros ->. discriminate.
    + exists json. split; [reflexivity | exact Es].
  - destruct (get_prop json "error"); discriminate.
Qed.

Lemma JSON_stringify_defined (v : value) :
  v <> VUndefined -> exists text, JSON_stringify v = Some text.
Proof.
  destruct v as [| |[|]| | | |]; cbn; intros H; try (eexists; reflexivity).
  contradiction.
Qed.

Lemma post_run (u : string) (b : value) (w : World) :
  let r := {| url := u;
              init := {| method := Some "POST";
                         headers := [("Authorization", auth (this w));
                                     ("Content-type",
                                      if defined b then "application/json" else empty)];
                         body := if defined b then JSON_stringify b else Some empty |} |} in
  post u b w = (unwrap (reply_to r w), sending [] r w).
Proof.
  unfold post, bind, get_this. cbn [fst snd].
  destruct (defined b); cbn zeta; rewrite http_run; reflexivity.
Qed.

Lemma put_run (u : string) (b : option string) (w : World) :
  let r := {| url := u;
              init := {| method := Some "PUT";
                         headers := [("Authorization", auth (this w));
                                     ("Content-type", "application/json")];
                         body := b |} |} in
  put u b w = (unwrap (reply_to r w), sending [] r w).
Proof.
  unfold put, bind, get_this. cbn [fst snd]. rewrite http_run. reflexivity.
Qed.

Lemma delete_run (u : string) (w : World) :
  let r := {| url := u;
              init := {| method := Some "DELETE";
                         headers := [("Authorization", auth (this w))];
                         body := None |} |} in
  delete u w = (unwrap (reply_to r w), sending [] r w).
Proof.
  unfold delete, bind, get_this. cbn [fst snd]. rewrite http_run. reflexivity.
Qed.

Lemma logged_run {A} (line : string) (k : HttpClient -> M A) (w : World) :
  (console_log line ;;; self <- get_this ;; k self) w = k (this w) (logging line w).
Proof. reflexivity. Qed.

Lemma reply_to_logging (r : Request) (line : string) (w : World) :
  reply_to r (logging line w) = reply_to r w.
Proof. reflexivity. Qed.

Lemma sending_logging (r : Request) (line : string) (w : World) :
  sending [] r (logging line w) = sending [line] r w.
Proof. unfold sending, logging; cbn. rewrite app_nil_r. reflexivity. Qed.

Ltac round_trip :=
  rewrite logged_run;
  first [ rewrite http_run | rewrite post_run | rewrite put_run | rewrite delete_run ];
  cbn zeta; rewrite reply_to_logging, sending_logging;
  cbn [this logging effective_init defined].

(** Every method that goes through [http] logs one line, sends one request
    and unwraps the reply to it. *)
Lemma enveloped_run (c : EnvelopeCall) (w : World) :
  exists (r : Request) (line : string),
    invoke_enveloped c w = (unwrap (reply_to r w), sending [line] r w).
Proof.
  destruct c; cbn [invoke_enveloped]; autounfold with endpoints;
    round_trip; eexists; eexists; reflexivity.
Qed.

Lemma graphQL_run (query : string) (variables : value) (w : World) :
  let r := {| url := base_url (this w) ++ "/graphql";
              init := {| method := Some "POST";
                         headers := [("Authorization", auth (this w));
                                     ("Content-type", "application/json")];
                         body := JSON_stringify (VObj [("query", VStr query);
                                                       ("variables", variables)]) |} |} in
  graphQL query variables w
  = (raw (reply_to r w), sending ["Sending graphQL query."] r w).
Proof.
  unfold graphQL. rewrite logged_run.
  unfold bind, fetch, reply_to, sending, logging. cbn [this console sent server].
  destruct (server w _); reflexivity.
Qed.

Lemma invoke_this (c : Call) (w : World) : this (after (invoke c) w) = this w.
Proof.
  unfold after. destruct c as [c|q v]; cbn [invoke].
  - destruct (enveloped_run c w) as (r & line & ->). reflexivity.
  - rewrite graphQL_run. reflexivity.
Qed.

(** ** The envelope *)

(** C1: when the [success] field of the envelope is defined, [http] returns
    exactly that field; the test is [success !== undefined], so a falsy but
    defined value ([false], [0], the empty string, [null]) is returned too. *)
Theorem http_returns_success (u : string) (i : option RequestInit) (w : World)
    (json v : value) :
  reply_to {| url := u; init := effective_init i (this w) |} w = Body json ->
  get_prop json "success" = Some v ->
  v <> VUndefined ->
  outcome (http u i) w = Return v.
Proof.
  intros Hr Hs Hv. unfold outcome. rewrite http_run. cbn zeta. cbn [fst].
  rewrite Hr. apply unwrap_defined; assumption.
Qed.

Lemma http_returns_success_witness :
  outcome (http "http://127.0.0.1:8080/api/hub/h1" None)
          (world_of (always (Body (VObj [("success", VBool false)]))))
  = Return (VBool false).
Proof.
  apply (@http_returns_success _ None _ (VObj [("success", VBool false)])).
  - reflexivity.
  - reflexivity.
  - discriminate.
Defined.

Example http_returns_zero :
  outcome (http "u" None) (world_of (always (Body (VObj [("success", VNum 0)]))))
  = Return (VNum 0).
Proof. reflexivity. Qed.

Example http_returns_empty_string :
  outcome (http "u" None) (world_of (always (Body (VObj [("success", VStr empty)]))))
  = Return (VStr empty).
Proof. reflexivity. Qed.

(** The draft's truthiness test turns the same falsy payload into an error. *)
Lemma Draft_http_false_raises :
  outcome (Draft.http "u" None)
          (world_of (always (Body (VObj [("success", VBool false)]))))
  = Throw (Error empty).
Proof. reflexivity. Qed.

(** C2: when the [success] field is absent and the envelope carries an
    [error] string, every method that unwraps the envelope raises an [Error]
    whose message is that string. *)
Theorem enveloped_error_raises (c : EnvelopeCall) (w : World) (json : value)
    (s : string) :
  answer (invoke_enveloped c) w = Body json ->
  get_prop json "success" = Some VUndefined ->
  get_prop json "error" = Some (VStr s) ->
  outcome (invoke_enveloped c) w = Throw (Error s).
Proof.
  unfold answer, after, outcome.
  destruct (enveloped_run c w) as (r & line & ->). cbn [fst snd sending sent].
  fold (reply_to r w). intros -> Hs He.
  unfold unwrap. rewrite Hs, He. reflexivity.
Qed.

Lemma enveloped_error_raises_witness :
  outcome (invoke_enveloped (CGetHub "h1"))
          (world_of (always (Body (VObj [("error", VStr "Hub not found.")]))))
  = Throw (Error "Hub not found.").
Proof.
  apply (@enveloped_error_raises (CGetHub "h1") _
           (VObj [("error", VStr "Hub not found.")])); reflexivity.
Defined.

(** C10 as the code has it: when neither [success] nor [error] is defined,
    [http] raises an [Error] built from the undefined [error] field, whose
    message is the empty string; and whenever [http] returns a value, that
    value is the defined [success] field of the reply. *)
Theorem http_undefined_success_raises (u : string) (i : option RequestInit)
    (w : World) (json : value) :
  reply_to {| url := u; init := effective_init i (this w) |} w = Body json ->
  get_prop json "success" = Some VUndefined ->
  get_prop json "error" = Some VUndefined ->
  outcome (http u i) w = Throw (Error empty)
  /\ (forall (u' : string) (i' : option RequestInit) (w' : World) (v : value),
        outcome (http u' i') w' = Return v ->
        v <> VUndefined
        /\ exists json',
             reply_to {| url := u'; init := effective_init i' (this w') |} w'
             = Body json'
             /\ get_prop json' "success" = Some v).
Proof.
  intros Hr Hs He. split.
  - unfold outcome. rewrite http_run. cbn zeta. cbn [fst]. rewrite Hr.
    unfold unwrap. rewrite Hs, He. reflexivity.
  - intros u' i' w' v. unfold outcome. rewrite http_run. cbn zeta. cbn [fst].
    apply unwrap_returns.
Qed.

Lemma http_undefined_success_raises_witness :
  outcome (http "http://127.0.0.1:8080/api/hub/h1" None)
          (world_of (always (Body (VObj []))))
  = Throw (Error empty).
Proof.
  apply (@http_undefined_success_raises _ None _ (VObj [])); reflexivity.
Defined.

(** C10 as stated fails: on the envelope [{}] the error raised has the empty
    string as its message, not [undefined]. *)
Lemma http_empty_envelope_counterexample :
  outcome (http "http://127.0.0.1:8080/api/hub/h1" None)
          (world_of (always (Body (VObj []))))
  = Throw (Error empty)
  /\ ~ (exists e,
          outcome (http "http://127.0.0.1:8080/api/hub/h1" None)
                  (world_of (always (Body (VObj [])))) = Throw e
          /\ message_of e = Some VUndefined).
Proof.
  split; [reflexivity|].
  intros (e & _ & He). destruct e; discriminate.
Qed.

(** ** Requests of the verb helpers *)

(** C3 meets a defect: [deleteHub] calls [http] with the default request, so
    it sends a GET of [/hub/{id}] carrying only the Authorization header, the
    very request [getHub] sends, where [deleteChannel] goes through [delete]. *)
Theorem deleteHub_sends_GET (id : ID) (w : World) :
  sent (after (deleteHub id) w)
  = (sent w ++ [{| url := base_url (this w) ++ "/hub/" ++ id;
                   init := {| method := Some "GET";
                              headers := [("Authorization", auth (this w))];
                              body := None |} |}])%list
  /\ sent (after (deleteHub id) w) = sent (after (getHub id) w)
  /\ outcome (deleteHub id) w = outcome (getHub id) w.
Proof.
  unfold after, outcome, deleteHub, getHub.
  rewrite !logged_run, !http_run. cbn zeta.
  rewrite !reply_to_logging, !sending_logging.
  repeat split; reflexivity.
Qed.

Example deleteHub_h1 :
  map (fun q => method (init q))
      (sent (after (deleteHub "h1") (world_of (always (Body (VObj []))))))
  = [Some "GET"].
Proof. reflexivity. Qed.

Example deleteChannel_h1 :
  map (fun q => method (init q))
      (sent (after (deleteChannel "h1" "c1") (world_of (always (Body (VObj []))))))
  = [Some "DELETE"].
Proof. reflexivity. Qed.

(** C5 as the code has it: [put] always sends Content-type application/json
    and hands its body argument to the request as it is, no body when there
    is none; the JSON text is made by the callers, each of which passes
    [JSON.stringify] of its payload. *)
Theorem put_request (u : string) (b : option string) (w : World) :
  sent (after (put u b) w)
  = (sent w ++ [{| url := u;
                   init := {| method := Some "PUT";
                              headers := [("Authorization", auth (this w));
                                          ("Content-type", "application/json")];
                              body := b |} |}])%list
  /\ (forall (id : ID) (update : value),
        updateHub id update w
        = put (base_url (this w) ++ "/hub/" ++ id) (JSON_stringify update)
              (logging ("Updating hub " ++ id) w))
  /\ (forall (hub_id channel_id : ID) (update : value),
        updateChannel hub_id channel_id update w
        = put (base_url (this w) ++ "/channel/" ++ hub_id ++ "/" ++ channel_id)
              (JSON_stringify update)
              (logging ("Updating channel " ++ channel_id ++ " in hub " ++ hub_id) w))
  /\ (forall (hub_id member_id : ID) (p : HubPermission) (setting : option bool),
        setMemberHubPermission hub_id member_id p setting w
        = put (base_url (this w) ++ "/member/" ++ hub_id ++ "/" ++ member_id
               ++ "/hub_permission/" ++ HubPermission_str p)
              (JSON_stringify (VObj [("setting", of_opt_bool setting)]))
              (logging ("Setting member permission " ++ HubPermission_str p
                        ++ " for member " ++ member_id ++ " in hub " ++ hub_id) w))
  /\ (forall (hub_id member_id channel_id : ID) (p : ChannelPermission)
             (setting : option bool),
        setMemberChannelPermission hub_id member_id channel_id p setting w
        = put (base_url (this w) ++ "/member/" ++ hub_id ++ "/" ++ member_id
               ++ "/channel_permission/" ++ channel_id ++ "/"
               ++ ChannelPermission_str p)
              (JSON_stringify (VObj [("setting", of_opt_bool setting)]))
              (logging ("Setting member permission " ++ ChannelPermission_str p
                        ++ " for member " ++ member_id ++ " in channel "
                        ++ channel_id ++ " in hub " ++ hub_id) w)).
Proof.
  split.
  - unfold after. rewrite put_run. reflexivity.
  - repeat split; intros; reflexivity.
Qed.

(** C5 as stated fails: a PUT without a body argument carries no body and
    Content-type application/json, not an empty body with an empty
    Content-type. *)
Lemma put_without_body_counterexample :
  sent (after (put "http://127.0.0.1:8080/api/hub/h1" None)
              (world_of (always (Body (VObj [])))))
  = [{| url := "http://127.0.0.1:8080/api/hub/h1";
        init := {| method := Some "PUT";
                   headers := [("Authorization", "user-1");
                               ("Content-type", "application/json")];
                   body := None |} |}]
  /\ ~ (forall q,
          In q (sent (after (put "http://127.0.0.1:8080/api/hub/h1" None)
                            (world_of (always (Body (VObj []))))))  ->
          body (init q) = Some empty
          /\ assoc "Content-type" (headers (init q)) = Some empty).
Proof.
  split; [reflexivity|].
  intros H. destruct (H _ (or_introl eq_refl)) as [Hb _]. discriminate Hb.
Qed.

(** C7: [post] sends a POST whose Authorization header is the client's token;
    with a body argument the body is its JSON text and the Content-type is
    application/json, without one the body and the Content-type are empty.
    The POST of [graphQL], the only one not made by [post], has a JSON body,
    Content-type application/json and the same Authorization header. *)
Theorem post_request (u : string) (b : value) (w : World) :
  sent (after (post u b) w)
  = (sent w ++ [{| url := u;
                   init := {| method := Some "POST";
                              headers := [("Authorization", auth (this w));
                                          ("Content-type",
                                           if defined b then "application/json"
                                           else empty)];
                              body := if defined b then JSON_stringify b
                                      else Some empty |} |}])%list
  /\ (if defined b then exists text, JSON_stringify b = Some text
      else b = VUndefined)
  /\ (forall (query : string) (variables : value),
        sent (after (graphQL query variables) w)
        = (sent w ++ [{| url := base_url (this w) ++ "/graphql";
                         init := {| method := Some "POST";
                                    headers := [("Authorization", auth (this w));
                                                ("Content-type", "application/json")];
                                    body := JSON_stringify
                                              (VObj [("query", VStr query);
                                                     ("variables", variables)]) |} |}])%list).
Proof.
  split; [|split].
  - unfold after. rewrite post_run. reflexivity.
  - destruct b as [| |[|]| | | |]; cbn; first [reflexivity | eexists; reflexivity].
  - intros. unfold after. rewrite graphQL_run. reflexivity.
Qed.

Example joinHub_request :
  sent (after (joinHub "h1") (world_of (always (Body (VObj [])))))
  = [{| url := "http://127.0.0.1:8080/api/hub/h1/join";
        init := {| method := Some "POST";
                   headers := [("Authorization", "user-1"); ("Content-type", empty)];
                   body := Some empty |} |}].
Proof. reflexivity. Qed.

Example sendMessage_request :
  sent (after (sendMessage "h1" "c1" "hi") (world_of (always (Body (VObj [])))))
  = [{| url := "http://127.0.0.1:8080/api/message/h1/c1";
        init := {| method := Some "POST";
                   headers := [("Authorization", "user-1");
                               ("Content-type", "application/json")];
                   body := Some ("{" ++ quote "message" ++ ":" ++ quote "hi" ++ "}") |} |}].
Proof. reflexivity. Qed.

(** ** Message queries and GraphQL *)

(** C8 meets a defect: [getMessagesAfter] and [getMesssagesTimeRange] hand
    to [fetch] a GET of [/message/{hub}/{channel}/after] and of
    [/message/{hub}/{channel}/time_period] that has a body, for every
    argument; the library refuses such a request, so over its guard each
    query throws a TypeError after its log line, sends nothing and returns no
    list, where [getHub] goes through. *)
Theorem getMessages_GET_with_body_refused (hub_id channel_id from : ID) (max : Z)
    (t_from t_to : Date) (new_to_old : bool) (w : World) :
  Forall (fun r => url r = base_url (this w) ++ "/message/" ++ hub_id ++ "/"
                           ++ channel_id ++ "/after"
                   /\ method (init r) = Some "GET"
                   /\ body (init r) <> None
                   /\ refuses_body (init r) = true)
         (requests_of (this w)
            (Enveloped (CGetMessagesAfter hub_id channel_id from max)))
  /\ Forall (fun r => url r = base_url (this w) ++ "/message/" ++ hub_id ++ "/"
                              ++ channel_id ++ "/time_period"
                      /\ method (init r) = Some "GET"
                      /\ body (init r) <> None
                      /\ refuses_body (init r) = true)
            (requests_of (this w)
               (Enveloped (CGetMesssagesTimeRange hub_id channel_id t_from t_to
                                                  max new_to_old)))
  /\ outcome (NodeFetch.getMessagesAfter hub_id channel_id from max) w
     = Throw TypeError
  /\ sent (after (NodeFetch.getMessagesAfter hub_id channel_id from max) w) = sent w
  /\ outcome (NodeFetch.getMesssagesTimeRange hub_id channel_id t_from t_to max
                                              new_to_old) w
     = Throw TypeError
  /\ sent (after (NodeFetch.getMesssagesTimeRange hub_id channel_id t_from t_to max
                                                  new_to_old) w) = sent w
  /\ NodeFetch.getHub hub_id w = getHub hub_id w.
Proof.
  repeat split;
    try (cbn; constructor; [repeat split; discriminate | constructor]).
Qed.

Example getMessagesAfter_refused :
  outcome (NodeFetch.getMessagesAfter "h1" "c1" "m1" 25)
          (world_of (always (Body (VObj [("success", VArr [VStr "m2"])]))))
  = Throw TypeError.
Proof. reflexivity. Qed.

(** C6: [graphQL] sends a POST of [/graphql] whose body is the JSON text of
    [{query, variables}] and returns the parsed body as it is, whatever its
    fields; it never raises an [Error], the exception of the envelope. *)
Theorem graphQL_returns_raw_body (query : string) (variables : value)
    (w : World) (json : value) :
  let r := {| url := base_url (this w) ++ "/graphql";
              init := {| method := Some "POST";
                         headers := [("Authorization", auth (this w));
                                     ("Content-type", "application/json")];
                         body := JSON_stringify (VObj [("query", VStr query);
                                                       ("variables", variables)]) |} |} in
  reply_to r w = Body json ->
  sent (after (graphQL query variables) w) = (sent w ++ [r])%list
  /\ outcome (graphQL query variables) w = Return json
  /\ (forall (w' : World) (m : string),
        outcome (graphQL query variables) w' <> Throw (Error m)).
Proof.
  intros r Hr. unfold after, outcome. rewrite graphQL_run. cbn zeta. fold r.
  cbn [fst snd sent sending]. rewrite Hr. repeat split.
  intros w' m. rewrite graphQL_run. cbn zeta. cbn [fst].
  destruct (reply_to _ w'); discriminate.
Qed.

Lemma graphQL_returns_raw_body_witness :
  outcome (graphQL "query{hub{name}}" VUndefined)
          (world_of (always (Body (VObj [("error", VStr "boom")]))))
  = Return (VObj [("error", VStr "boom")]).
Proof.
  apply (@graphQL_returns_raw_body "query{hub{name}}" VUndefined
           (world_of (always (Body (VObj [("error", VStr "boom")]))))
           (VObj [("error", VStr "boom")]) eq_refl).
Defined.

Example graphQL_body :
  map (fun q => body (init q))
      (sent (after (graphQL "q" VUndefined) (world_of (always Unreachable))))
  = [Some ("{" ++ quote "query" ++ ":" ++ quote "q" ++ "}")].
Proof. reflexivity. Qed.

(** ** The client object *)

Lemma run_all_this (cs : list Call) :
  forall w, this (run_all cs w) = this w.
Proof.
  induction cs as [|c cs IH]; intros w; cbn [run_all].
  - reflexivity.
  - rewrite IH. apply invoke_this.
Qed.

(** C9: no endpoint method changes the client object: after any call, and
    after any sequence of calls, [base_url] and [auth] are the ones set at
    construction. *)
Theorem calls_preserve_client (c : Call) (cs : list Call) (w : World) :
  this (after (invoke c) w) = this w
  /\ base_url (this (run_all cs w)) = base_url (this w)
  /\ auth (this (run_all cs w)) = auth (this w).
Proof.
  split; [apply invoke_this|]. rewrite run_all_this. split; reflexivity.
Qed.

(** ** Hub permissions *)

Lemma opt_eqb_refl (a : option string) : opt_eqb a a = true.
Proof. destruct a; cbn; [apply String.eqb_refl | reflexivity]. Qed.

Lemma getMemberHubPermission_run (hub_id member_id : ID) (p : HubPermission)
    (w : World) :
  let r := {| url := base_url (this w) ++ "/member/" ++ hub_id ++ "/" ++ member_id
                     ++ "/hub_permission/" ++ HubPermission_str p;
              init := default_init (this w) |} in
  getMemberHubPermission hub_id member_id p w
  = (unwrap (reply_to r w),
     sending ["Getting member permission " ++ HubPermission_str p
              ++ " for member " ++ member_id ++ " in hub " ++ hub_id] r w).
Proof. unfold getMemberHubPermission. round_trip. reflexivity. Qed.

Lemma setMemberHubPermission_run (hub_id member_id : ID) (p : HubPermission)
    (setting : option bool) (w : World) :
  let r := {| url := base_url (this w) ++ "/member/" ++ hub_id ++ "/" ++ member_id
                     ++ "/hub_permission/" ++ HubPermission_str p;
              init := {| method := Some "PUT";
                         headers := [("Authorization", auth (this w));
                                     ("Content-type", "application/json")];
                         body := setting_body setting |} |} in
  setMemberHubPermission hub_id member_id p setting w
  = (unwrap (reply_to r w),
     sending ["Setting member permission " ++ HubPermission_str p
              ++ " for member " ++ member_id ++ " in hub " ++ hub_id] r w).
Proof. unfold setMemberHubPermission. round_trip. reflexivity. Qed.

(** C4 as the code has it: [getMemberHubPermission] never returns
    [undefined]; when the server reports the unset permission as
    [success: null] it returns [null] without raising; and when the server
    accepts the PUT of [setMemberHubPermission(perm, true)] and reflects it
    in the GET of the same path that follows, the same query made after the
    setting returns [true]. *)
Theorem hub_permission_unset_then_set (hub_id member_id : ID) (p : HubPermission)
    (w : World) :
  let u := base_url (this w) ++ "/member/" ++ hub_id ++ "/" ++ member_id
           ++ "/hub_permission/" ++ HubPermission_str p in
  let r_get := {| url := u; init := default_init (this w) |} in
  let r_put := {| url := u;
                  init := {| method := Some "PUT";
                             headers := [("Authorization", auth (this w));
                                         ("Content-type", "application/json")];
                             body := setting_body (Some true) |} |} in
  let w1 := after (getMemberHubPermission hub_id member_id p) w in
  let w2 := after (setMemberHubPermission hub_id member_id p (Some true)) w1 in
  (forall w' : World,
     outcome (getMemberHubPermission hub_id member_id p) w' <> Return VUndefined)
  /\ (forall json,
        reply_to r_get w = Body json ->
        get_prop json "success" = Some VNull ->
        outcome (getMemberHubPermission hub_id member_id p) w = Return VNull)
  /\ (reflects_setting (server w) (sent w ++ [r_get]) r_put r_get ->
      (exists status,
         outcome (setMemberHubPermission hub_id member_id p (Some true)) w1
         = Return status) ->
      outcome (getMemberHubPermission hub_id member_id p) w2 = Return (VBool true)).
Proof.
  intros u r_get r_put w1 w2. subst w1 w2. unfold after, outcome.
  split; [|split].
  - intros w' H. rewrite getMemberHubPermission_run in H. cbn zeta in H.
    cbn [fst] in H. apply unwrap_returns in H. destruct H as [H _].
    apply H. reflexivity.
  - intros json Hr Hs. rewrite getMemberHubPermission_run. cbn zeta. cbn [fst].
    fold u. fold r_get. rewrite Hr.
    apply unwrap_defined; [assumption | discriminate].
  - intros Hk (status & Hset).
    rewrite (getMemberHubPermission_run hub_id member_id p w) in *.
    cbn zeta in *. cbn [snd] in *.
    rewrite setMemberHubPermission_run in *. cbn zeta in *. cbn [fst snd] in *.
    rewrite getMemberHubPermission_run. cbn zeta. cbn [fst].
    unfold reply_to in *. cbn [sent sending this server] in *.
    fold u in Hset |- *. fold r_get in Hset |- *. fold r_put in Hset |- *.
    apply unwrap_returns in Hset.
    destruct Hset as (Hd & json & Hj & Hs).
    destruct (Hk json status Hj Hs Hd) as (json' & Hj' & Hs').
    rewrite <- (app_assoc (sent w ++ [r_get])%list). cbn [app].
    rewrite Hj'. apply unwrap_defined; [assumption | discriminate].
Qed.

Lemma hub_permission_unset_then_set_witness :
  let w := world_of permission_server in
  let w1 := after (getMemberHubPermission "h1" "m1" ReadChannels) w in
  let w2 := after (setMemberHubPermission "h1" "m1" ReadChannels (Some true)) w1 in
  outcome (getMemberHubPermission "h1" "m1" ReadChannels) w = Return VNull
  /\ outcome (getMemberHubPermission "h1" "m1" ReadChannels) w2 = Return (VBool true).
Proof.
  intros w w1 w2.
  destruct (@hub_permission_unset_then_set "h1" "m1" ReadChannels w)
    as (_ & H1 & H2).
  split.
  - apply (H1 (VObj [("success", VNull)])); reflexivity.
  - apply H2.
    + intros json status _ _ _. eexists. split; reflexivity.
    + eexists. reflexivity.
Defined.

(** C4 as stated fails: [getMemberHubPermission] returns [undefined] in no
    world.  An envelope without [success] makes it raise, and an unset
    permission sent as [null] comes back as [null]. *)
Lemma getMemberHubPermission_undefined_counterexample :
  outcome (getMemberHubPermission "h1" "m1" ReadChannels)
          (world_of (always (Body (VObj [])))) = Throw (Error empty)
  /\ outcome (getMemberHubPermission "h1" "m1" ReadChannels)
             (world_of (always (Body (VObj [("success", VNull)])))) = Return VNull
  /\ ~ (exists (w : World) (hub_id member_id : ID) (p : HubPermission),
          outcome (getMemberHubPermission hub_id member_id p) w = Return VUndefined).
Proof.
  split; [reflexivity | split; [reflexivity |]].
  intros (w & h & m & p & H). unfold outcome in H.
  rewrite getMemberHubPermission_run in H. cbn zeta in H. cbn [fst] in H.
  apply unwrap_returns in H. destruct H as [H _]. apply H. reflexivity.
Qed.

Example set_then_get_history :
  let w := world_of permission_server in
  let w1 := after (setMemberHubPermission "h1" "m1" Kick (Some false)) w in
  outcome (getMemberHubPermission "h1" "m1" Kick) w1 = Return (VBool false).
Proof. reflexivity. Qed.

(** ** Every call is one round trip *)

Lemma invoke_round_trip (c : Call) (w : World) :
  sent (after (invoke c) w) = (sent w ++ requests_of (this w) c)%list
  /\ List.length (requests_of (this w) c) = 1
  /\ console (after (invoke c) w) = (console w ++ lines_of (this w) c)%list
  /\ List.length (lines_of (this w) c) = 1
  /\ server (after (invoke c) w) = server w.
Proof.
  unfold after. destruct c as [c|q v]; cbn [invoke].
  - destruct c; cbn [invoke_enveloped]; autounfold with endpoints;
      round_trip; repeat split; reflexivity.
  - rewrite graphQL_run. repeat split; reflexivity.
Qed.

(** X1: whatever the server answers and whatever was sent before, a call
    appends to the history exactly one request, which depends on the client
    and the arguments only, logs exactly one line and leaves the server as it
    was: no retry after a failure, no request saved by an earlier one. *)
Theorem invoke_sends_one_request (c : Call) (w : World) :
  sent (after (invoke c) w) = (sent w ++ requests_of (this w) c)%list
  /\ List.length (requests_of (this w) c) = 1
  /\ console (after (invoke c) w) = (console w ++ lines_of (this w) c)%list
  /\ List.length (lines_of (this w) c) = 1
  /\ server (after (invoke c) w) = server w.
Proof. exact (invoke_round_trip c w). Qed.

Lemma run_all_server (cs : list Call) :
  forall w, server (run_all cs w) = server w.
Proof.
  induction cs as [|c cs IH]; intros w; cbn [run_all]; [reflexivity|].
  rewrite IH. apply invoke_round_trip.
Qed.

(** X2: a sequence of calls sends its requests in the order of the calls, one
    for each call, behind the history it started from; nothing already sent
    is changed or dropped, whatever the calls return or throw. *)
Theorem run_all_sends_in_order (cs : list Call) (w : World) :
  sent (run_all cs w) = (sent w ++ flat_map (requests_of (this w)) cs)%list
  /\ List.length (sent (run_all cs w)) = List.length (sent w) + List.length cs
  /\ List.length (console (run_all cs w)) = List.length (console w) + List.length cs.
Proof.
  revert w. induction cs as [|c cs IH]; intros w; cbn [run_all flat_map List.length].
  - rewrite app_nil_r, !Nat.add_0_r. repeat split.
  - destruct (IH (after (invoke c) w)) as (Hs & Hl & Hc).
    destruct (invoke_round_trip c w) as (Rs & Rl & Rc & Rk & _).
    rewrite Hl, Hc, Hs, invoke_this, Rs, Rc, !length_app, Rl, Rk, <- app_assoc.
    repeat split; lia.
Qed.

(** ** What every request carries *)

Ltac each_call c :=
  destruct c as [c|? ?]; [destruct c|]; cbn.

Lemma prefix_append (s t : string) : String.prefix s (s ++ t) = true.
Proof.
  induction s as [|a s IH]; cbn; [destruct t; reflexivity|].
  destruct (ascii_dec a a); [exact IH | contradiction].
Qed.

(** X3: the request of every call carries the header Authorization with the
    token of the client, and its URL starts with the base URL of the client. *)
Theorem requests_carry_token_and_base (self : HttpClient) (c : Call) :
  Forall (fun r => header "Authorization" r = Some (auth self)
                   /\ String.prefix (base_url self) (url r) = true)
         (requests_of self c).
Proof.
  each_call c; (constructor; [split; [reflexivity | apply prefix_append] | constructor]).
Qed.

(** X4: the only call that sends a DELETE request is [deleteChannel]. *)
Theorem only_deleteChannel_sends_DELETE (self : HttpClient) (c : Call) :
  Exists (fun r => method (init r) = Some "DELETE") (requests_of self c)
  <-> exists hub_id channel_id, c = Enveloped (CDeleteChannel hub_id channel_id).
Proof.
  each_call c; split; intros H;
    try (apply Exists_cons in H; destruct H as [H|H];
         [discriminate H | inversion H]);
    try (destruct H as (h & ch & H); discriminate H).
  - eexists; eexists; reflexivity.
  - apply Exists_cons_hd. reflexivity.
Qed.

(** X5: the only GET requests that carry a body are those of the two message
    queries; every other GET is sent without one. *)
Theorem only_message_queries_send_GET_with_body (self : HttpClient) (c : Call) :
  Exists (fun r => method (init r) = Some "GET" /\ body (init r) <> None)
         (requests_of self c)
  <-> (exists hub_id channel_id from max,
         c = Enveloped (CGetMessagesAfter hub_id channel_id from max))
      \/ (exists hub_id channel_id from to max new_to_old,
            c = Enveloped (CGetMesssagesTimeRange hub_id channel_id from to max
                                                  new_to_old)).
Proof.
  each_call c; split; intros H;
    try (apply Exists_cons in H; destruct H as [[Hm Hb]|H];
         [first [discriminate Hm | contradiction Hb; reflexivity] | inversion H]);
    try (destruct H as [(? & ? & ? & ? & H)|(? & ? & ? & ? & ? & ? & H)];
         discriminate H).
  - left. repeat eexists.
  - apply Exists_cons_hd. split; [reflexivity | discriminate].
  - right. repeat eexists.
  - apply Exists_cons_hd. split; [reflexivity | discriminate].
Qed.

(** X6: in the request of every call, a body that is not empty comes with
    Content-type application/json, and a request without a Content-type
    header has no body. *)
Theorem bodies_are_labelled_json (self : HttpClient) (c : Call) :
  Forall (fun r =>
            (forall t, body (init r) = Some t -> t <> empty ->
                       header "Content-type" r = Some "application/json")
            /\ (header "Content-type" r = None -> body (init r) = None))
         (requests_of self c).
Proof.
  each_call c; (constructor; [split | constructor]);
    try (intros t Hb Ht;
         first [reflexivity | discriminate Hb
               | injection Hb as <-; contradiction Ht; reflexivity]);
    try (intros Hh; first [reflexivity | discriminate Hh]).
Qed.

(** ** Failures *)

Lemma invoke_outcome (c : Call) (w : World) :
  outcome (invoke c) w
  = match c with
    | Enveloped _ => unwrap (answer (invoke c) w)
    | CGraphQL _ _ => raw (answer (invoke c) w)
    end.
Proof.
  unfold outcome, answer, after. destruct c as [c|q v]; cbn [invoke].
  - destruct (enveloped_run c w) as (r & line & ->). reflexivity.
  - rewrite graphQL_run. reflexivity.
Qed.

(** X7: a transport failure is passed on as it is: when the server cannot be
    reached or its body is not JSON, every call, [graphQL] included, throws
    the transport error and returns nothing. *)
Theorem transport_failure_propagates (c : Call) (w : World) :
  answer (invoke c) w = Unreachable \/ answer (invoke c) w = Malformed ->
  outcome (invoke c) w = Throw TransportError.
Proof.
  intros H. rewrite invoke_outcome. destruct c; destruct H as [-> | ->]; reflexivity.
Qed.

Lemma transport_failure_propagates_witness :
  outcome (invoke (Enveloped (CSendMessage "h1" "c1" "hello")))
          (world_of (always Malformed)) = Throw TransportError.
Proof.
  apply (@transport_failure_propagates
           (Enveloped (CSendMessage "h1" "c1" "hello"))
           (world_of (always Malformed))).
  right. reflexivity.
Defined.

(** X8: a reply that is JSON but not an object is never returned by a method
    that unwraps the envelope: [null] makes the read of [success] a
    TypeError, and a number, a string, a boolean or an array has neither
    field, so the call throws an [Error] with the empty message. *)
Theorem non_object_reply_raises (c : EnvelopeCall) (w : World) (json : value) :
  answer (invoke_enveloped c) w = Body json ->
  (forall props, json <> VObj props) ->
  outcome (invoke_enveloped c) w
  = Throw (match json with
           | VUndefined | VNull => TypeError
           | _ => Error empty
           end).
Proof.
  intros Ha Hn.
  change (invoke_enveloped c) with (invoke (Enveloped c)) in *.
  rewrite invoke_outcome, Ha.
  destruct json; try reflexivity. elim (Hn props). reflexivity.
Qed.

Lemma non_object_reply_raises_witness :
  outcome (invoke_enveloped (CGetMember "h1" "m1"))
          (world_of (always (Body (VArr [VStr "m1"])))) = Throw (Error empty)
  /\ outcome (invoke_enveloped (CGetMember "h1" "m1"))
             (world_of (always (Body VNull))) = Throw TypeError.
Proof.
  split.
  - apply (@non_object_reply_raises (CGetMember "h1" "m1")
             (world_of (always (Body (VArr [VStr "m1"])))) (VArr [VStr "m1"]) eq_refl).
    intros props H. discriminate H.
  - apply (@non_object_reply_raises (CGetMember "h1" "m1")
             (world_of (always (Body VNull))) VNull eq_refl).
    intros props H. discriminate H.
Defined.

(** ** The draft and the final transport primitive *)

Lemma Draft_http_run (u : string) (i : option RequestInit) (w : World) :
  let r := {| url := u; init := effective_init i (this w) |} in
  Draft.http u i w = (Draft_unwrap (reply_to r w), sending [] r w).
Proof.
  unfold Draft.http, bind, get_this, fetch, reply_to, sending, effective_init.
  cbn [fst snd this console sent server].
  rewrite app_nil_r.
  destruct i as [i|]; cbn;
    (destruct (server w _) as [| |json]; cbn; try reflexivity;
     unfold read; destruct (get_prop json "success") as [s|] eqn:Es; cbn;
     try reflexivity;
     destruct (truthy s); cbn; try reflexivity;
     destruct json; cbn in *; try discriminate; reflexivity).
Qed.

(** X9: the draft of [http] and the final one send the same request and
    leave the same world.  When the [success] field of the reply is defined
    and falsy ([null], [false], [0], the empty string) the final one returns
    the field where the draft throws the [Error] made of the [error] field;
    in every other case the two outcomes are equal. *)
Theorem Draft_http_differs_on_falsy_success (u : string)
    (i : option RequestInit) (w : World) :
  let falsy_success :=
    exists json v,
      reply_to {| url := u; init := effective_init i (this w) |} w = Body json
      /\ get_prop json "success" = Some v
      /\ v <> VUndefined /\ truthy v = false in
  after (Draft.http u i) w = after (http u i) w
  /\ (forall json v,
        reply_to {| url := u; init := effective_init i (this w) |} w = Body json ->
        get_prop json "success" = Some v ->
        v <> VUndefined -> truthy v = false ->
        outcome (http u i) w = Return v
        /\ exists e, get_prop json "error" = Some e
                     /\ outcome (Draft.http u i) w = Throw (new_Error e))
  /\ (~ falsy_success -> outcome (Draft.http u i) w = outcome (http u i) w).
Proof.
  intros falsy_success. subst falsy_success.
  unfold after, outcome. rewrite Draft_http_run, http_run. cbn zeta. cbn [fst snd].
  split; [reflexivity | split].
  - intros json v -> Hs Hv Ht. cbn [unwrap Draft_unwrap]. rewrite Hs, Ht.
    assert (Hd : defined v = true) by (destruct v; try reflexivity; contradiction).
    rewrite Hd. split; [reflexivity|].
    destruct json; cbn in Hs |- *; try discriminate Hs;
      eexists; split; reflexivity.
  - intros Hn.
    destruct (reply_to _ w) as [| |json] eqn:Er; try reflexivity.
    cbn [unwrap Draft_unwrap].
    destruct (get_prop json "success") as [v|] eqn:Es; [|reflexivity].
    destruct (truthy v) eqn:Et.
    + destruct v; try discriminate Et; reflexivity.
    + destruct (defined v) eqn:Ed; [|reflexivity].
      elim Hn. exists json, v. repeat split; try assumption.
      intros ->. discriminate Ed.
Qed.

Lemma Draft_http_differs_on_falsy_success_witness :
  let w := world_of (always (Body (VObj [("success", VNum 0)]))) in
  outcome (http "u" None) w = Return (VNum 0)
  /\ outcome (Draft.http "u" None) w = Throw (Error empty).
Proof.
  intros w.
  destruct (@Draft_http_differs_on_falsy_success "u" None w) as (_ & H & _).
  destruct (H (VObj [("success", VNum 0)]) (VNum 0) eq_refl eq_refl) as (Hf & e & He & Hd).
  - discriminate.
  - reflexivity.
  - split; [exact Hf|]. rewrite Hd. injection He as <-. reflexivity.
Defined.

(** ** What the unwrapping methods return *)

(** X10: a method that unwraps the envelope returns a value exactly when the
    reply is a body whose [success] field is defined, and the value is that
    field: none of the 25 methods can return [undefined]. *)
Theorem enveloped_returns_iff (c : EnvelopeCall) (w : World) (v : value) :
  outcome (invoke_enveloped c) w = Return v
  <-> exists json,
        answer (invoke_enveloped c) w = Body json
        /\ get_prop json "success" = Some v
        /\ v <> VUndefined.
Proof.
  change (invoke_enveloped c) with (invoke (Enveloped c)).
  rewrite invoke_outcome. split.
  - intros H. apply unwrap_returns in H. destruct H as (Hv & json & Hr & Hs).
    exists json. repeat split; assumption.
  - intros (json & -> & Hs & Hv). apply unwrap_defined; assumption.
Qed.

Lemma enveloped_returns_iff_witness :
  outcome (invoke_enveloped (CGetMemberStatus "h1" "m1"))
          (world_of (always (Body (VObj [("success", VObj [("muted", VBool false)])]))))
  = Return (VObj [("muted", VBool false)]).
Proof.
  apply (proj2 (@enveloped_returns_iff (CGetMemberStatus "h1" "m1")
                  (world_of (always (Body (VObj [("success",
                                                  VObj [("muted", VBool false)])]))))
                  (VObj [("muted", VBool false)]))).
  eexists. split; [reflexivity | split; [reflexivity | discriminate]].
Defined.



(** ** Paths *)

(** X12: identifiers are spliced into the path as they are.  A member id
    that ends in [/status] makes [getMember] send the very request of
    [getMemberStatus], with the same outcome, and the message id [after]
    makes [getMessage] address the URL of [getMessagesAfter] with the same
    verb. *)
Theorem identifiers_are_not_encoded (hub_id member_id channel_id from : ID)
    (max : Z) (self : HttpClient) (w : World) :
  requests_of self (Enveloped (CGetMember hub_id (member_id ++ "/status")))
  = requests_of self (Enveloped (CGetMemberStatus hub_id member_id))
  /\ outcome (getMember hub_id (member_id ++ "/status")) w
     = outcome (getMemberStatus hub_id member_id) w
  /\ map (fun r => (url r, method (init r)))
         (requests_of self (Enveloped (CGetMessage hub_id channel_id "after")))
     = map (fun r => (url r, method (init r)))
           (requests_of self (Enveloped (CGetMessagesAfter hub_id channel_id from max))).
Proof.
  split; [reflexivity | split; [|reflexivity]].
  unfold outcome, getMember, getMemberStatus.
  rewrite !logged_run, !http_run. reflexivity.
Qed.

Lemma append_inv_head (s a b : string) : s ++ a = s ++ b -> a = b.
Proof.
  induction s as [|c s IH]; cbn; intros H; [exact H|].
  injection H as H. exact (IH H).
Qed.

Lemma string_cons_inv (c : ascii) (a b : string) : String c a = String c b -> a = b.
Proof. intros H. injection H as H. exact H. Qed.

Ltac strip_prefix H :=
  repeat first [apply string_cons_inv in H | apply append_inv_head in H].

Lemma HubPermission_str_inj (p q : HubPermission) :
  HubPermission_str p = HubPermission_str q -> p = q.
Proof. destruct p, q; cbn; intros H; first [reflexivity | discriminate H]. Qed.

Lemma ChannelPermission_str_inj (p q : ChannelPermission) :
  ChannelPermission_str p = ChannelPermission_str q -> p = q.
Proof. destruct p, q; cbn; intros H; first [reflexivity | discriminate H]. Qed.

(** X13: for the same hub, member and channel, two different permissions are
    read and set at two different URLs. *)
Theorem permissions_have_distinct_urls (self : HttpClient)
    (hub_id member_id channel_id : ID) (p q : HubPermission)
    (p' q' : ChannelPermission) (s t : option bool) :
  (p <> q ->
   map url (requests_of self (Enveloped (CGetMemberHubPermission hub_id member_id p)))
   <> map url (requests_of self (Enveloped (CGetMemberHubPermission hub_id member_id q)))
   /\ map url (requests_of self (Enveloped (CSetMemberHubPermission hub_id member_id p s)))
      <> map url (requests_of self (Enveloped (CSetMemberHubPermission hub_id member_id q t))))
  /\ (p' <> q' ->
      map url (requests_of self
                 (Enveloped (CGetMemberChannelPermission hub_id member_id channel_id p')))
      <> map url (requests_of self
                    (Enveloped (CGetMemberChannelPermission hub_id member_id channel_id q')))
      /\ map url (requests_of self
                    (Enveloped (CSetMemberChannelPermission hub_id member_id channel_id p' s)))
         <> map url (requests_of self
                       (Enveloped (CSetMemberChannelPermission hub_id member_id channel_id q' t)))).
Proof.
  split; intros Hne; split; intros H; apply Hne;
    injection H as H; strip_prefix H;
    first [apply HubPermission_str_inj | apply ChannelPermission_str_inj];
    exact H.
Qed.

Lemma permissions_have_distinct_urls_witness :
  map url (requests_of client0 (Enveloped (CGetMemberHubPermission "h1" "m1" Kick)))
  <> map url (requests_of client0 (Enveloped (CGetMemberHubPermission "h1" "m1" Ban))).
Proof.
  apply (proj1 (@permissions_have_distinct_urls client0 "h1" "m1" "c1" Kick Ban
                  Read Read None None)).
  discriminate.
Defined.

(** ** Bodies *)

(** X14: an argument left out of [createHub] or [createChannel] is left out
    of the JSON object sent, not sent as [null], and the body is an object
    labelled application/json even when both are left out. *)
Theorem omitted_arguments_are_left_out (self : HttpClient) (hub_id : ID)
    (name description : option string) :
  let fields :=
    app (match name with
         | Some s => [quote "name" ++ ":" ++ quote s]
         | None => []
         end)
        (match description with
         | Some s => [quote "description" ++ ":" ++ quote s]
         | None => []
         end) in
  map (fun r => (body (init r), header "Content-type" r))
      (requests_of self (Enveloped (CCreateHub name description)))
  = [(Some ("{" ++ join "," fields ++ "}"), Some "application/json")]
  /\ map (fun r => (body (init r), header "Content-type" r))
         (requests_of self (Enveloped (CCreateChannel hub_id name description)))
     = [(Some ("{" ++ join "," fields ++ "}"), Some "application/json")].
Proof. destruct name, description; split; reflexivity. Qed.

Lemma unescape_escape_char (c : ascii) (r : string) :
  unescape (escape_char c ++ r) = option_map (String c) (unescape r).
Proof.
  destruct c as [[|] [|] [|] [|] [|] [|] [|] [|]]; reflexivity.
Qed.

Lemma unescape_escape (s : string) : unescape (escape s) = Some s.
Proof.
  induction s as [|c s IH]; cbn [escape]; [reflexivity|].
  rewrite unescape_escape_char, IH. reflexivity.
Qed.

Lemma escape_inj (s t : string) : escape s = escape t -> s = t.
Proof.
  intros H. apply (f_equal unescape) in H.
  rewrite !unescape_escape in H. injection H as H. exact H.
Qed.

Lemma length_append (a b : string) :
  String.length (a ++ b) = String.length a + String.length b.
Proof. induction a as [|c a IH]; cbn; [reflexivity | rewrite IH; reflexivity]. Qed.

Lemma append_inv_tail (t a b : string) : a ++ t = b ++ t -> a = b.
Proof.
  revert b. induction a as [|c a IH]; intros [|d b] H; cbn in H.
  - reflexivity.
  - apply (f_equal String.length) in H. cbn in H. rewrite length_append in H. lia.
  - apply (f_equal String.length) in H. cbn in H. rewrite length_append in H. lia.
  - injection H as -> H. f_equal. exact (IH _ H).
Qed.

(** X15: the body [sendMessage] sends determines the message: two different
    messages never give the same body, whatever quotes, backslashes or
    control characters they hold. *)
Theorem sendMessage_body_determines_message (self : HttpClient)
    (hub_id channel_id : ID) (m1 m2 : string) :
  m1 <> m2 ->
  map (fun r => body (init r))
      (requests_of self (Enveloped (CSendMessage hub_id channel_id m1)))
  <> map (fun r => body (init r))
         (requests_of self (Enveloped (CSendMessage hub_id channel_id m2))).
Proof.
  intros Hne H. apply Hne. cbn in H.
  injection H as H. strip_prefix H.
  apply append_inv_tail in H. apply append_inv_tail in H.
  exact (escape_inj _ _ H).
Qed.

Lemma sendMessage_body_determines_message_witness :
  map (fun r => body (init r))
      (requests_of client0 (Enveloped (CSendMessage "h1" "c1" "yes")))
  <> map (fun r => body (init r))
         (requests_of client0 (Enveloped (CSendMessage "h1" "c1" "no"))).
Proof.
  apply (@sendMessage_body_determines_message client0 "h1" "c1" "yes" "no").
  discriminate.
Defined.

Ltac pick_case :=
  first [ solve [repeat eexists] | left; solve [repeat eexists] | right; pick_case ].

(** X16: a POST goes out with an empty body exactly for the seven membership
    actions (join, leave, ban, unban, mute, unmute, kick); every other POST,
    that of [graphQL] included, has a JSON object as its body. *)
Theorem only_membership_actions_POST_empty (self : HttpClient) (c : Call) :
  Exists (fun r => method (init r) = Some "POST" /\ body (init r) = Some empty)
         (requests_of self c)
  <-> (exists h, c = Enveloped (CJoinHub h))
      \/ (exists h, c = Enveloped (CLeaveHub h))
      \/ (exists h m, c = Enveloped (CBanMember h m))
      \/ (exists h m, c = Enveloped (CUnbanMember h m))
      \/ (exists h m, c = Enveloped (CMuteMember h m))
      \/ (exists h m, c = Enveloped (CUnmuteMember h m))
      \/ (exists h m, c = Enveloped (CKickMember h m)).
Proof.
  each_call c; split; intros H;
    first
      [ solve [pick_case]
      | solve [apply Exists_cons_hd; split; reflexivity]
      | solve [apply Exists_cons in H; destruct H as [[Hm Hb]|H];
               [first [discriminate Hm | discriminate Hb] | inversion H]]
      | solve [decompose [or ex] H; congruence] ].
Qed.

(** ** Channel permissions *)

(** X17: [setMemberChannelPermission] and [getMemberChannelPermission]
    address the same path with the same token: when the server accepts the
    PUT of [setMemberChannelPermission(perm, true)] and reflects it in the
    GET of the same path that follows, the query made right after the
    setting returns [true]. *)
Theorem channel_permission_set_then_get (hub_id member_id channel_id : ID)
    (p : ChannelPermission) (w : World) :
  let u := base_url (this w) ++ "/member/" ++ hub_id ++ "/" ++ member_id
           ++ "/channel_permission/" ++ channel_id ++ "/"
           ++ ChannelPermission_str p in
  let r_get := {| url := u; init := default_init (this w) |} in
  let r_put := {| url := u;
                  init := {| method := Some "PUT";
                             headers := [("Authorization", auth (this w));
                                         ("Content-type", "application/json")];
                             body := setting_body (Some true) |} |} in
  let w1 := after (setMemberChannelPermission hub_id member_id channel_id p
                                              (Some true)) w in
  reflects_setting (server w) (sent w) r_put r_get ->
  (exists status,
     outcome (setMemberChannelPermission hub_id member_id channel_id p (Some true)) w
     = Return status) ->
  outcome (getMemberChannelPermission hub_id member_id channel_id p) w1
  = Return (VBool true).
Proof.
  intros u r_get r_put w1 Hk (status & Hset). subst w1.
  unfold after, outcome, setMemberChannelPermission, getMemberChannelPermission in *.
  rewrite (logged_run _ _ w), put_run in *. cbn zeta in *.
  rewrite reply_to_logging, sending_logging in *. cbn [fst snd] in *.
  rewrite logged_run, http_run. cbn zeta. cbn [fst].
  rewrite reply_to_logging.
  unfold reply_to in *. cbn [sent sending this server logging effective_init] in *.
  change (JSON_stringify (VObj [("setting", of_opt_bool (Some true))]))
    with (setting_body (Some true)) in *.
  fold u in Hset |- *. fold r_get in Hset |- *. fold r_put in Hset |- *.
  apply unwrap_returns in Hset. destruct Hset as (Hd & json & Hj & Hs).
  destruct (Hk json status Hj Hs Hd) as (json' & Hj' & Hs').
  rewrite <- app_assoc. cbn [app].
  rewrite Hj'. apply unwrap_defined; [assumption | discriminate].
Qed.

Lemma channel_permission_set_then_get_witness :
  let w := world_of permission_server in
  let w1 := after (setMemberChannelPermission "h1" "m1" "c1" Write (Some true)) w in
  outcome (getMemberChannelPermission "h1" "m1" "c1" Write) w1 = Return (VBool true).
Proof.
  intros w w1.
  apply (@channel_permission_set_then_get "h1" "m1" "c1" Write w).
  - intros json status _ _ _. eexists. split; reflexivity.
  - eexists. reflexivity.
Defined.
